(** * Shallow embedding of [persona_generator.py]

    The Python script is modelled as a computation in a small state and
    exit monad.  The state records what the script prints, the files it
    writes and the network requests it issues.  The environment of one run
    (configuration variables, the line typed on standard input, the two
    third-party back ends and the file system) is an explicit input.

    A Python [str] is modelled as a [string]; each [ascii] character stands
    for one code point, so Python's [len] is [String.length]. *)

From Stdlib Require Import String Ascii List ZArith Bool Lia.
Import ListNotations.
Open Scope string_scope.

(** ** Python helpers *)

(** Truthiness of a value that is either [None] or a [str]. *)
Definition py_truthy_str (s : string) : bool := negb (String.eqb s "").

Definition py_truthy_opt (o : option string) : bool :=
  match o with
  | Some s => py_truthy_str s
  | None => false
  end.

(** The builtin [all] on a list of optional strings. *)
Definition py_all (l : list (option string)) : bool := forallb py_truthy_opt l.

(** [str.isspace] on one character, restricted to ASCII. *)
Definition py_isspace (c : ascii) : bool :=
  let n := nat_of_ascii c in
  ((9 <=? n) && (n <=? 13))%nat || ((28 <=? n) && (n <=? 32))%nat.

Fixpoint py_lstrip (s : string) : string :=
  match s with
  | EmptyString => EmptyString
  | String c s' => if py_isspace c then py_lstrip s' else s
  end.

Fixpoint py_rstrip (s : string) : string :=
  match s with
  | EmptyString => EmptyString
  | String c s' =>
      let r := py_rstrip s' in
      if String.eqb r "" && py_isspace c then EmptyString else String c r
  end.

(** [str.strip()] *)
Definition py_strip (s : string) : string := py_rstrip (py_lstrip s).

(** Slicing [s[:n]] for [n >= 0]. *)
Definition py_slice_upto (s : string) (n : Z) : string :=
  substring 0 (Z.to_nat n) s.

Definition py_len (s : string) : Z := Z.of_nat (String.length s).

Definition nl : string := String "010"%char EmptyString.

(** ** extract_username

    [re.search(r'reddit\.com\/user\/([^\/]+)', profile_url)] tries the
    pattern at every position from left to right; at a position the
    literal [reddit.com/user/] must follow, then the greedy group [[^/]+]
    takes the maximal non-empty run of characters other than ['/']. *)

Definition user_pat : string := "reddit.com/user/".

Fixpoint take_nonslash (s : string) : string :=
  match s with
  | EmptyString => EmptyString
  | String c s' => if Ascii.eqb c "/"%char then EmptyString else String c (take_nonslash s')
  end.

Fixpoint drop (n : nat) (s : string) : string :=
  match n, s with
  | O, _ => s
  | S n', EmptyString => EmptyString
  | S n', String _ s' => drop n' s'
  end.

(** The pattern anchored at the start of [s]; [Some group1] on success. *)
Definition match_at (s : string) : option string :=
  if prefix user_pat s then
    match take_nonslash (drop (String.length user_pat) s) with
    | EmptyString => None
    | g => Some g
    end
  else None.

Fixpoint re_search (s : string) : option string :=
  match match_at s with
  | Some g => Some g
  | None =>
      match s with
      | EmptyString => None
      | String _ s' => re_search s'
      end
  end.

(** [match.group(1) if match else None] *)
Definition extract_username (profile_url : string) : option string :=
  re_search profile_url.

(** ** Data model *)

(** Configuration read by [os.getenv] at import time ([None] when unset). *)
Record config := mk_config {
  REDDIT_CLIENT_ID : option string;
  REDDIT_CLIENT_SECRET : option string;
  REDDIT_USER_AGENT : option string;
  OPENAI_API_KEY : option string
}.

(** The attributes of a praw [Submission] that the script reads.  A
    link-only submission is one with [is_self = false]. *)
Record submission := mk_submission {
  sub_id : string;
  sub_permalink : string;
  sub_title : string;
  sub_selftext : string;
  sub_is_self : bool
}.

(** The attributes of a praw [Comment] that the script reads. *)
Record rcomment := mk_rcomment {
  rc_id : string;
  rc_permalink : string;
  rc_body : string
}.

(** The dict built for a post: keys "id", "url", "title", "selftext". *)
Record post := mk_post {
  post_id : string;
  post_url : string;
  post_title : string;
  post_selftext : string
}.

(** The dict built for a comment: keys "id", "url", "body". *)
Record comment := mk_comment {
  comment_id : string;
  comment_url : string;
  comment_body : string
}.

(** What a praw listing delivers when iterated: items, or an exception
    (an [Exception] subclass, given by its message) raised by the next
    step of the iteration (HTTP error, 404 for an unknown user, rate limit,
    authentication failure, ...). *)
Inductive event (A : Type) :=
| Item (a : A)
| Raise (msg : string).
Arguments Item {A} a.
Arguments Raise {A} msg.

(** Outcome of [openai.ChatCompletion.create(...)] followed by
    [response['choices'][0]['message']['content']]. *)
Inductive completion :=
| Completion_ok (content : string)
| Completion_openai_error (msg : string)   (* openai.error.OpenAIError *)
| Completion_other_error (msg : string).   (* any other Exception *)

(** Network requests the script issues. *)
Inductive call :=
| Call_submissions (username : string) (limit : nat)
| Call_comments (username : string) (limit : nat)
| Call_completion (full_prompt : string).

(** Every [print] of the script, with its interpolated arguments. *)
Inductive message :=
| M_banner
| M_enter_url
| M_invalid_url
| M_processing (username : string)
| M_reddit_credentials_missing
| M_attempting (username : string)
| M_fetched_posts (n : nat)
| M_fetched_comments (n : nat)
| M_fetch_error (msg : string)
| M_fetch_hint
| M_no_data (username : string)
| M_generating
| M_openai_key_missing
| M_truncated (from to : Z)
| M_openai_error (msg : string)
| M_openai_hint
| M_unexpected_error (msg : string)
| M_saved (filename : string)
| M_save_error (filename : string)
| M_failed_generate
| M_uncaught_exception (exc : string).  (* traceback of an uncaught exception *)

(** The environment of one run. *)
Record env := mk_env {
  cfg : config;
  stdin_line : string;
  new_submissions : string -> list (event submission);
  new_comments : string -> list (event rcomment);
  chat_completion : string -> completion;
  writable : string -> bool;
  partial_write : string -> option nat;
  initial_files : string -> option string
}.

(** ** A state and exit monad *)

Record world := mk_world {
  out : list message;
  files : string -> option string;
  calls : list call
}.

Inductive res (A : Type) :=
| Ok (a : A) (w : world)
| Exited (code : Z) (w : world).
Arguments Ok {A} a w.
Arguments Exited {A} code w.

Definition M (A : Type) := world -> res A.

Definition ret {A} (a : A) : M A := fun w => Ok a w.

Definition bind {A B} (m : M A) (k : A -> M B) : M B :=
  fun w => match m w with
           | Ok a w' => k a w'
           | Exited c w' => Exited c w'
           end.

Notation "x <- m ;; k" := (bind m (fun x => k))
  (at level 61, m at next level, right associativity).
Notation "m ;; k" := (bind m (fun _ => k))
  (at level 61, right associativity).

Definition print (m : message) : M unit :=
  fun w => Ok tt (mk_world (out w ++ [m])%list (files w) (calls w)).

Definition request (c : call) : M unit :=
  fun w => Ok tt (mk_world (out w) (files w) (calls w ++ [c])%list).

(** [open(filename, "w")] then [f.write(text)]: the file is truncated and
    then holds exactly [text]. *)
Definition write_file (filename text : string) : M unit :=
  fun w => Ok tt (mk_world (out w)
                           (fun f => if String.eqb f filename then Some text else files w f)
                           (calls w)).

(** [sys.exit(code)] *)
Definition sys_exit {A} (code : Z) : M A := fun w => Exited code w.

(** ** get_user_data *)

(** praw's [ListingGenerator] iterated to exhaustion: it stops once
    [limit] items have been yielded, or when the upstream listing is
    exhausted; an exception raised while fetching propagates out of the
    [for] loop.  The items yielded before the exception are returned with
    it. *)
Fixpoint listing_new {A} (limit : nat) (evs : list (event A)) : list A * option string :=
  match limit with
  | O => ([], None)
  | S n =>
      match evs with
      | [] => ([], None)
      | Item a :: evs' => let '(l, err) := listing_new n evs' in (a :: l, err)
      | Raise msg :: _ => ([], Some msg)
      end
  end.

(** The first step of the iteration issues the HTTP request, unless
    [limit] is already reached. *)
Definition listing_request (c : call) (limit : nat) : M unit :=
  match limit with
  | O => ret tt
  | S _ => request c
  end.

Definition reddit_base : string := "https://www.reddit.com".

Definition post_of_submission (submission : submission) : post :=
  mk_post (sub_id submission)
          (reddit_base ++ sub_permalink submission)
          (sub_title submission)
          (if sub_is_self submission then sub_selftext submission else "[Link Post]").

Definition comment_of_rcomment (c : rcomment) : comment :=
  mk_comment (rc_id c) (reddit_base ++ rc_permalink c) (rc_body c).

(** The [except Exception as e] branch. *)
Definition fetch_failed (msg : string) : M (list post * list comment) :=
  print (M_fetch_error msg) ;;
  print M_fetch_hint ;;
  ret ([], []).

Definition get_user_data (e : env) (username : string) (limit : nat)
  : M (list post * list comment) :=
  let c := cfg e in
  if negb (py_all [REDDIT_CLIENT_ID c; REDDIT_CLIENT_SECRET c; REDDIT_USER_AGENT c]) then
    print M_reddit_credentials_missing ;;
    sys_exit 1
  else
    (* [reddit = praw.Reddit(...)] and [redditor = reddit.redditor(username)]
       build lazy objects and issue no request; praw's [Redditor] rejects an
       empty name with [ValueError].  Both lines are outside the [try], so
       the exception is not caught: the interpreter prints its traceback and
       the process ends with status 1. *)
    if String.eqb username "" then
      print (M_uncaught_exception "ValueError") ;;
      sys_exit 1
    else
    print (M_attempting username) ;;
    listing_request (Call_submissions username limit) limit ;;
    match listing_new limit (new_submissions e username) with
    | (_, Some msg) => fetch_failed msg
    | (subs, None) =>
        let posts := map post_of_submission subs in
        print (M_fetched_posts (List.length posts)) ;;
        listing_request (Call_comments username limit) limit ;;
        match listing_new limit (new_comments e username) with
        | (_, Some msg) => fetch_failed msg
        | (coms, None) =>
            let comments := map comment_of_rcomment coms in
            print (M_fetched_comments (List.length comments)) ;;
            ret (posts, comments)
        end
    end.

(** ** generate_persona *)

Definition prompt : string := "Based on the following Reddit posts and comments, generate a detailed user persona.
    The persona should include categories such as:
    - **Interests**: What are their hobbies, passions, and topics they engage with?
    - **Values**: What principles or beliefs seem important to them?
    - **Tone/Communication Style**: How do they typically express themselves (e.g., formal, casual, humorous, sarcastic, critical)?
    - **Personality Traits**: What adjectives describe their general demeanor (e.g., empathetic, analytical, cynical, enthusiastic)?
    - **Potential Political Views**: Are there any indications of political leanings or social stances?

    For EACH characteristic identified, you MUST cite the exact Reddit post or comment content that directly supports your inference.
    Cite by including the full text of the supporting content, clearly marked with its type ([POST] or [COMMENT]) and its unique URL.

    Example of desired output format:
    **Interests:**
    - Enjoys video games, especially RPGs. [Cite: [POST] URL: https://www.reddit.com/r/gaming/comments/... Title: My favorite RPGs Body: I spend hours playing The Witcher 3 and Elden Ring...]
    - Has a strong interest in technology and AI. [Cite: [COMMENT] URL: https://www.reddit.com/r/technology/comments/... Body: AI advancements are truly fascinating, especially in natural language processing.]

    **Values:**
    - Values intellectual honesty and critical thinking. [Cite: [COMMENT] URL: https://www.reddit.com/r/science/comments/... Body: It's important to base opinions on scientific evidence, not just anecdotal experiences.]

    --- Reddit User Data for Analysis ---
    ".

Definition post_block (p : post) : string :=
  "[POST] URL: " ++ post_url p ++ nl ++
  "Title: " ++ post_title p ++ nl ++
  "Body: " ++ post_selftext p ++ nl ++ nl.

Definition comment_block (c : comment) : string :=
  "[COMMENT] URL: " ++ comment_url c ++ nl ++
  "Body: " ++ comment_body c ++ nl ++ nl.

(** [content_for_llm] after the two [for] loops with [+=]. *)
Definition content_for_llm (posts : list post) (comments : list comment) : string :=
  fold_left (fun acc c => acc ++ comment_block c) comments
            (fold_left (fun acc p => acc ++ post_block p) posts "").

Definition max_input_length : Z := 15000.

Definition generate_persona (e : env) (posts : list post) (comments : list comment) : M string :=
  if negb (py_truthy_opt (OPENAI_API_KEY (cfg e))) then
    print M_openai_key_missing ;;
    sys_exit 1
  else
    let content := content_for_llm posts comments in
    content <- (if (py_len content >? max_input_length)%Z then
                  print (M_truncated (py_len content) max_input_length) ;;
                  ret (py_slice_upto content max_input_length)
                else ret content) ;;
    let full_prompt := prompt ++ content in
    request (Call_completion full_prompt) ;;
    match chat_completion e full_prompt with
    | Completion_ok text => ret text
    | Completion_openai_error msg =>
        print (M_openai_error msg) ;;
        print M_openai_hint ;;
        sys_exit 1
    | Completion_other_error msg =>
        print (M_unexpected_error msg) ;;
        sys_exit 1
    end.

(** ** save_persona *)

Definition persona_filename (username : string) : string := username ++ "_persona.txt".

(** [open(filename, "w")] creates or truncates the file, and [f.write]
    with the close ending the [with] block puts the text in it; [writable]
    says that all of this succeeds.  Otherwise an [IOError] is raised,
    either by [open] itself ([partial_write = None]: the file is left as
    it was) or after [open] ([Some n]: the file holds the first [n]
    characters that reached the disk, nothing when [n = 0]). *)
Definition save_persona (e : env) (username persona_text : string) : M unit :=
  let filename := persona_filename username in
  if writable e filename then
    write_file filename persona_text ;;
    print (M_saved filename)
  else
    match partial_write e filename with
    | None => ret tt
    | Some n => write_file filename (substring 0 n persona_text)
    end ;;
    print (M_save_error filename) ;;
    sys_exit 1.

(** ** main *)

Definition is_nil {A} (l : list A) : bool :=
  match l with [] => true | _ => false end.

(** [main] from the call [get_user_data(username)] on. *)
Definition main_after_fetch (e : env) (username : string)
           (posts : list post) (comments : list comment) : M unit :=
  if is_nil posts && is_nil comments then
    print (M_no_data username) ;;
    sys_exit 0
  else
    print M_generating ;;
    persona <- generate_persona e posts comments ;;
    if py_truthy_str persona then save_persona e username persona
    else print M_failed_generate.

Definition invalid_url : M unit := print M_invalid_url ;; sys_exit 1.

Definition main (e : env) : M unit :=
  print M_banner ;;
  print M_enter_url ;;
  let url := py_strip (stdin_line e) in
  match extract_username url with
  | None => invalid_url
  | Some username =>
      if negb (py_truthy_str username) then invalid_url
      else
        print (M_processing username) ;;
        pc <- get_user_data e username 50 ;;
        main_after_fetch e username (fst pc) (snd pc)
  end.

Definition initial_world (e : env) : world := mk_world [] (initial_files e) [].

Definition run_main (e : env) : res unit := main e (initial_world e).

(** Process exit status: [sys.exit(code)], or 0 when [main] returns. *)
Definition exit_status (r : res unit) : Z :=
  match r with
  | Ok _ _ => 0
  | Exited c _ => c
  end.

Definition final_world {A} (r : res A) : world :=
  match r with
  | Ok _ w => w
  | Exited _ w => w
  end.

(** ** Observations used by the statements *)

(** A print of the truncation warning. *)
Definition is_truncation_warning (m : message) : bool :=
  match m with M_truncated _ _ => true | _ => false end.

(** Iterating the listing raises. *)
Definition listing_fails {A} (limit : nat) (evs : list (event A)) : bool :=
  match snd (listing_new limit evs) with Some _ => true | None => false end.


(** The string contains no ['/']. *)
Fixpoint no_slash (s : string) : bool :=
  match s with
  | EmptyString => true
  | String c s' => negb (Ascii.eqb c "/"%char) && no_slash s'
  end.

(** The fetch of [main] ([limit = 50]) returns some posts or comments. *)
Definition fetch_has_data (e : env) (username : string) : Prop :=
  forall w, exists posts comments w',
    get_user_data e username 50 w = Ok (posts, comments) w' /\
    (posts <> [] \/ comments <> []).

(** The fetch returns some posts or comments: neither listing raises and
    one of them yields an item. *)
Definition fetch_returns_data (e : env) (username : string) (limit : nat) : bool :=
  match listing_new limit (new_submissions e username) with
  | (_, Some _) => false
  | (subs, None) =>
      match listing_new limit (new_comments e username) with
      | (_, Some _) => false
      | (coms, None) => negb (is_nil subs && is_nil coms)
      end
  end.

(** ** Sample runs *)

Definition sample_url : string := "https://www.reddit.com/user/kojied/".

Definition sample_self_post : submission :=
  mk_submission "1abc" "/r/Coq/comments/1abc/proofs/" "Proofs" "I like proofs." true.

Definition sample_link_post : submission :=
  mk_submission "1abd" "/r/Coq/comments/1abd/paper/" "A paper" "" false.

Definition sample_comment : rcomment :=
  mk_rcomment "k1" "/r/Coq/comments/1abc/proofs/k1/" "Same here.".

Definition config_with_key (key : option string) : config :=
  mk_config (Some "client-id") (Some "client-secret") (Some "persona-script/0.1") key.

Definition sample_env (c : config) (line : string) (subs : list (event submission))
           (coms : list (event rcomment)) (reply : completion) (can_write : bool) : env :=
  mk_env c line (fun _ => subs) (fun _ => coms) (fun _ => reply) (fun _ => can_write)
         (fun _ => None) (fun _ => None).

(** A user with one self post, one link post and one comment. *)
Definition env_with_data (key : option string) (reply : completion) (can_write : bool) : env :=
  sample_env (config_with_key key) sample_url
             [Item sample_self_post; Item sample_link_post] [Item sample_comment]
             reply can_write.

(** A user whose submission listing fails after one item (HTTP 404). *)
Definition env_fetch_error : env :=
  sample_env (config_with_key (Some "sk-test")) sample_url
             [Item sample_self_post; Raise "received 404 HTTP response"] [Item sample_comment]
             (Completion_ok "PERSONA_TEXT") true.

(** No Reddit client id. *)
Definition env_no_client_id : env :=
  sample_env (mk_config None (Some "client-secret") (Some "persona-script/0.1") (Some "sk-test"))
             sample_url [Item sample_self_post] [Item sample_comment]
             (Completion_ok "PERSONA_TEXT") true.

Definition w_empty : world := mk_world [] (fun _ => None) [].

(** A URL that names no user. *)
Definition env_bad_url : env :=
  sample_env (config_with_key (Some "sk-test")) "https://example.com"
             [Item sample_self_post] [Item sample_comment]
             (Completion_ok "PERSONA_TEXT") true.

(** The disk fills up after [open] has truncated the output file and the
    first four characters of the persona have been written. *)
Definition env_disk_full : env :=
  mk_env (config_with_key (Some "sk-test")) sample_url
         (fun _ => [Item sample_self_post]) (fun _ => [Item sample_comment])
         (fun _ => Completion_ok "PERSONA_TEXT") (fun _ => false) (fun _ => Some 4)
         (fun _ => None).

(** * Lemmas *)

Lemma str_app_assoc (a b c : string) : (a ++ b) ++ c = a ++ (b ++ c).
Proof. induction a as [|x a IH]; simpl; [reflexivity | now rewrite IH]. Qed.

Lemma str_app_nil_r (a : string) : a ++ "" = a.
Proof. induction a as [|x a IH]; simpl; [reflexivity | now rewrite IH]. Qed.

Lemma substring0_length (n : nat) (s : string) :
  (String.length (substring 0 n s) <= n)%nat.
Proof.
  revert s; induction n as [|n IH]; intros [|c s]; simpl; try lia.
  specialize (IH s); lia.
Qed.

Lemma substring0_prefix (n : nat) (s : string) :
  exists rest, s = substring 0 n s ++ rest.
Proof.
  revert s; induction n as [|n IH]; intros [|c s]; simpl.
  - now exists "".
  - now exists (String c s).
  - now exists "".
  - destruct (IH s) as [rest Hr]; exists rest; now rewrite <- Hr.
Qed.

Lemma py_slice_upto_len (s : string) :
  (py_len (py_slice_upto s max_input_length) <= max_input_length)%Z.
Proof.
  unfold py_len, py_slice_upto.
  pose proof (substring0_length (Z.to_nat max_input_length) s) as H.
  apply Nat2Z.inj_le in H.
  rewrite Z2Nat.id in H by (unfold max_input_length; lia).
  exact H.
Qed.

(** ** Listings *)

Lemma listing_new_length {A} (limit : nat) (evs : list (event A)) :
  (List.length (fst (listing_new limit evs)) <= limit)%nat.
Proof.
  revert evs; induction limit as [|n IH]; intros evs; simpl; [lia|].
  destruct evs as [|[a|msg] evs]; simpl; try lia.
  specialize (IH evs); destruct (listing_new n evs) as [l err]; simpl in *; lia.
Qed.

Lemma listing_new_in {A} (limit : nat) (evs : list (event A)) (a : A) :
  In a (fst (listing_new limit evs)) -> In (Item a) evs.
Proof.
  revert evs; induction limit as [|n IH]; intros evs; simpl; [tauto|].
  destruct evs as [|[b|msg] evs]; simpl; try tauto.
  specialize (IH evs); destruct (listing_new n evs) as [l err]; simpl in *.
  intros [->|H]; [now left | right; now apply IH].
Qed.

Lemma listing_request_ok (c : call) (limit : nat) (w : world) :
  exists w', listing_request c limit w = Ok tt w' /\ out w' = out w /\ files w' = files w /\
             (forall x, In x (calls w') -> In x (calls w) \/ x = c).
Proof.
  destruct limit; simpl; eexists; repeat split; [now left|].
  simpl; intros x Hx; apply in_app_or in Hx as [Hx|[Hx|[]]]; [now left | now right].
Qed.

Ltac step :=
  repeat match goal with
  | |- context [bind (print ?m) ?k ?w] => change (bind (print m) k w) with (k tt (mk_world (out w ++ [m])%list (files w) (calls w)))
  | |- context [bind (ret ?a) ?k ?w] => change (bind (ret a) k w) with (k a w)
  | |- context [bind (request ?c) ?k ?w] => change (bind (request c) k w) with (k tt (mk_world (out w) (files w) (calls w ++ [c])%list))
  | |- context [bind (sys_exit ?c) ?k ?w] => change (bind (sys_exit c) k w) with (Exited c w)
  end; cbn beta iota.

(** The value returned by [get_user_data] once the credentials are set. *)
Lemma get_user_data_cases (e : env) (username : string) (limit : nat) (w w' : world)
      (posts : list post) (comments : list comment) :
  get_user_data e username limit w = Ok (posts, comments) w' ->
  (posts = [] /\ comments = [] /\
   (listing_fails limit (new_submissions e username)
    || listing_fails limit (new_comments e username)) = true /\
   exists msg, In (M_fetch_error msg) (out w'))
  \/ (exists subs coms,
        listing_new limit (new_submissions e username) = (subs, None) /\
        listing_new limit (new_comments e username) = (coms, None) /\
        posts = map post_of_submission subs /\
        comments = map comment_of_rcomment coms).
Proof.
  unfold get_user_data.
  destruct (negb _); [unfold bind, print, sys_exit; simpl; discriminate|].
  destruct (String.eqb username ""); [unfold bind, print, sys_exit; simpl; discriminate|].
  unfold listing_fails.
  unfold bind at 1; unfold print at 1.
  unfold bind at 1.
  destruct (listing_request_ok (Call_submissions username limit) limit
              (mk_world (out w ++ [M_attempting username])%list (files w) (calls w)))
    as [w1 [-> _]].
  destruct (listing_new limit (new_submissions e username)) as [subs [msg|]] eqn:Hs.
  - unfold fetch_failed; step; intros H; injection H as <- <- <-.
    left; refine (conj eq_refl (conj eq_refl (conj eq_refl _))); exists msg; simpl.
    rewrite <- app_assoc; apply in_or_app; right; simpl; tauto.
  - unfold bind at 1; unfold print at 1; unfold bind at 1.
    match goal with |- context [listing_request ?c limit ?w0] =>
      destruct (listing_request_ok c limit w0) as [w2 [-> _]] end.
    destruct (listing_new limit (new_comments e username)) as [coms [msg|]] eqn:Hc.
    + unfold fetch_failed; step; intros H; injection H as <- <- <-.
      left; refine (conj eq_refl (conj eq_refl (conj _ _))); [now rewrite orb_true_r|]. exists msg; simpl.
      rewrite <- app_assoc; apply in_or_app; right; simpl; tauto.
    + step; intros H; injection H as <- <- <-.
      right; exists subs, coms; repeat split.
Qed.

Lemma match_at_nonempty (s g : string) : match_at s = Some g -> g <> "".
Proof.
  unfold match_at; destruct (prefix user_pat s); [|discriminate].
  destruct (take_nonslash _); [discriminate|]. intros H; injection H as <-; discriminate.
Qed.

Lemma extract_username_nonempty (s g : string) : extract_username s = Some g -> g <> "".
Proof.
  unfold extract_username; induction s as [|c s IH]; simpl.
  - discriminate.
  - destruct (match_at (String c s)) eqn:Hm; [intros H; injection H as <-; now apply (match_at_nonempty (String c s))|].
    exact IH.
Qed.

Lemma py_truthy_str_true (s : string) : s <> "" -> py_truthy_str s = true.
Proof. intros H; unfold py_truthy_str; apply String.eqb_neq in H; now rewrite H. Qed.

(** [main] up to the call of [get_user_data] on a URL that names a user. *)
Lemma main_unfold (e : env) (username : string) :
  extract_username (py_strip (stdin_line e)) = Some username ->
  run_main e =
  bind (get_user_data e username 50)
       (fun pc => main_after_fetch e username (fst pc) (snd pc))
       (mk_world [M_banner; M_enter_url; M_processing username] (initial_files e) []).
Proof.
  intros Hx; unfold run_main, main, initial_world.
  step. rewrite Hx.
  rewrite (py_truthy_str_true username (extract_username_nonempty _ _ Hx)); cbn - [get_user_data main_after_fetch].
  reflexivity.
Qed.

(** ** The regular expression search *)

Lemma prefix_app (p t : string) : prefix p (p ++ t) = true.
Proof.
  induction p as [|a p IH]; simpl; [now destruct t|].
  destruct (ascii_dec a a) as [_|n]; [exact IH | now destruct n].
Qed.

Lemma prefix_inv (p s : string) : prefix p s = true -> exists t, s = p ++ t.
Proof.
  revert s; induction p as [|a p IH]; intros s; simpl; [intros _; now exists s|].
  destruct s as [|b s]; [intros ?; discriminate|].
  simpl; destruct (ascii_dec a b) as [<-|_]; [|intros ?; discriminate].
  intros H; destruct (IH s H) as [t ->]; now exists t.
Qed.

Lemma drop_app (p t : string) : drop (String.length p) (p ++ t) = t.
Proof. induction p as [|a p IH]; simpl; [destruct t|]; auto. Qed.

Lemma take_nonslash_app (name rest : string) :
  no_slash name = true -> (rest = "" \/ exists r, rest = String "/" r) ->
  take_nonslash (name ++ rest) = name.
Proof.
  intros Hn Hr; induction name as [|c name IH]; simpl.
  - destruct Hr as [-> | [r ->]]; reflexivity.
  - simpl in Hn; apply andb_prop in Hn as [Hc Hn].
    destruct (Ascii.eqb c "/"%char); [discriminate|]. now rewrite IH.
Qed.

Lemma match_at_pat (c : ascii) (t : string) :
  c <> "/"%char ->
  match_at (user_pat ++ String c t) = Some (take_nonslash (String c t)).
Proof.
  intros Hc; unfold match_at; rewrite prefix_app, drop_app; simpl.
  apply Ascii.eqb_neq in Hc; now rewrite Hc.
Qed.

Lemma match_at_some (s g : string) :
  match_at s = Some g -> exists c t, s = user_pat ++ String c t /\ c <> "/"%char.
Proof.
  unfold match_at; destruct (prefix user_pat s) eqn:Hp; [|discriminate].
  destruct (prefix_inv _ _ Hp) as [u ->]; rewrite drop_app.
  destruct u as [|c t]; [discriminate|]; simpl.
  destruct (Ascii.eqb c "/"%char) eqn:Hc; [discriminate|].
  intros _; exists c, t; split; [reflexivity|]. now apply Ascii.eqb_neq.
Qed.

Lemma re_search_eq (s : string) :
  re_search s = match match_at s with
                | Some g => Some g
                | None => match s with EmptyString => None | String _ s' => re_search s' end
                end.
Proof. destruct s; reflexivity. Qed.

Lemma re_search_app_none (p x : string) : re_search (p ++ x) = None -> re_search x = None.
Proof.
  induction p as [|a p IH]; simpl; [auto|].
  destruct (match_at (String a (p ++ x))); [discriminate | exact IH].
Qed.

Lemma re_search_none_iff (s : string) :
  re_search s = None <->
  ~ exists p c t, s = p ++ user_pat ++ String c t /\ c <> "/"%char.
Proof.
  split.
  - intros H [p [c [t [-> Hc]]]].
    apply re_search_app_none in H; rewrite re_search_eq, match_at_pat in H by exact Hc.
    discriminate.
  - induction s as [|a s IH]; intros Hn; rewrite re_search_eq.
    + reflexivity.
    + destruct (match_at (String a s)) as [g|] eqn:Hm.
      * exfalso; apply Hn; destruct (match_at_some _ _ Hm) as [c [t [Ht Hc]]].
        exists "", c, t; split; assumption.
      * apply IH; intros [p [c [t [Hs Hc]]]]; apply Hn.
        exists (String a p), c, t; split; [simpl; now rewrite Hs | exact Hc].
Qed.

Lemma re_search_leftmost (p name rest : string) :
  name <> "" -> no_slash name = true ->
  (rest = "" \/ exists r, rest = String "/" r) ->
  (forall q r, p = q ++ r -> r <> "" ->
     ~ exists c t, r ++ user_pat ++ name ++ rest = user_pat ++ String c t /\ c <> "/"%char) ->
  re_search (p ++ user_pat ++ name ++ rest) = Some name.
Proof.
  intros Hne Hns Hr; induction p as [|a p IH]; intros Hearly.
  - destruct name as [|c n]; [contradiction|].
    simpl in Hns; apply andb_prop in Hns as [Hc Hns'].
    assert (Hc' : c <> "/"%char) by (apply Ascii.eqb_neq; now destruct (Ascii.eqb c "/"%char)).
    rewrite re_search_eq; cbn [String.append].
    rewrite match_at_pat by exact Hc'.
    f_equal; change (String c (n ++ rest)) with (String c n ++ rest).
    apply take_nonslash_app; [simpl; now rewrite Hc, Hns' | exact Hr].
  - rewrite re_search_eq.
    destruct (match_at (String a p ++ user_pat ++ name ++ rest)) as [g|] eqn:Hm.
    + exfalso; apply (Hearly "" (String a p) eq_refl ltac:(discriminate)).
      exact (match_at_some _ _ Hm).
    + cbn [String.append]. apply IH; intros q r Hq Hrne.
      apply (Hearly (String a q) r); [simpl; now rewrite Hq | exact Hrne].
Qed.

(** ** Stages of [main] *)

Lemma run_main_invalid (e : env) :
  extract_username (py_strip (stdin_line e)) = None ->
  run_main e = Exited 1 (mk_world [M_banner; M_enter_url; M_invalid_url] (initial_files e) []).
Proof. intros Hx; unfold run_main, main, initial_world; step; rewrite Hx; reflexivity. Qed.

Lemma get_user_data_nocreds (e : env) (username : string) (limit : nat) (w : world) :
  py_all [REDDIT_CLIENT_ID (cfg e); REDDIT_CLIENT_SECRET (cfg e); REDDIT_USER_AGENT (cfg e)] = false ->
  get_user_data e username limit w
  = Exited 1 (mk_world (out w ++ [M_reddit_credentials_missing])%list (files w) (calls w)).
Proof. intros Hc; unfold get_user_data; rewrite Hc; cbn [negb]; step; reflexivity. Qed.

Lemma get_user_data_ok (e : env) (username : string) (limit : nat) (w : world) :
  py_all [REDDIT_CLIENT_ID (cfg e); REDDIT_CLIENT_SECRET (cfg e); REDDIT_USER_AGENT (cfg e)] = true ->
  username <> "" ->
  exists r w', get_user_data e username limit w = Ok r w' /\ files w' = files w /\
    (forall x, In x (calls w') ->
       In x (calls w) \/ x = Call_submissions username limit \/ x = Call_comments username limit).
Proof.
  intros Hc Hu; unfold get_user_data; rewrite Hc; cbn [negb].
  rewrite (proj2 (String.eqb_neq username "") Hu).
  unfold bind at 1; unfold print at 1; unfold bind at 1.
  match goal with |- context [listing_request ?c limit ?w0] =>
    destruct (listing_request_ok c limit w0) as [w1 [-> [_ [Hf1 Hc1]]]] end.
  simpl in Hf1, Hc1.
  destruct (listing_new limit (new_submissions e username)) as [subs [msg|]].
  - unfold fetch_failed; step; do 2 eexists; split; [reflexivity|]; simpl.
    split; [exact Hf1|]. intros x Hx; destruct (Hc1 x Hx); tauto.
  - unfold bind at 1; unfold print at 1; unfold bind at 1.
    match goal with |- context [listing_request ?c limit ?w0] =>
      destruct (listing_request_ok c limit w0) as [w2 [-> [_ [Hf2 Hc2]]]] end.
    simpl in Hf2, Hc2.
    destruct (listing_new limit (new_comments e username)) as [coms [msg|]];
      [unfold fetch_failed|]; step; do 2 eexists; split; try reflexivity; simpl;
      (split; [congruence|]); intros x Hx; destruct (Hc2 x Hx) as [H|H];
      [destruct (Hc1 x H); tauto | tauto | destruct (Hc1 x H); tauto | tauto].
Qed.

Lemma fetch_has_data_creds (e : env) (username : string) :
  fetch_has_data e username ->
  py_all [REDDIT_CLIENT_ID (cfg e); REDDIT_CLIENT_SECRET (cfg e); REDDIT_USER_AGENT (cfg e)] = true.
Proof.
  intros Hd; destruct (py_all _) eqn:Hc; [reflexivity|].
  destruct (Hd (mk_world [] (fun _ => None) [])) as [ps [cs [w' [Hg _]]]].
  rewrite get_user_data_nocreds in Hg by exact Hc; discriminate.
Qed.

Lemma main_after_fetch_empty (e : env) (username : string) (w : world) :
  main_after_fetch e username [] [] w
  = Exited 0 (mk_world (out w ++ [M_no_data username])%list (files w) (calls w)).
Proof. unfold main_after_fetch; cbn [is_nil andb]; step; reflexivity. Qed.

Lemma main_after_fetch_data (e : env) (username : string) posts comments (w : world) :
  (posts <> [] \/ comments <> []) ->
  main_after_fetch e username posts comments w
  = bind (generate_persona e posts comments)
         (fun persona => if py_truthy_str persona then save_persona e username persona
                         else print M_failed_generate)
         (mk_world (out w ++ [M_generating])%list (files w) (calls w)).
Proof.
  intros Hne; unfold main_after_fetch.
  replace (is_nil posts && is_nil comments) with false
    by (destruct posts, comments; simpl; tauto || (destruct Hne; congruence)).
  step; reflexivity.
Qed.

Lemma generate_persona_nokey (e : env) posts comments (w : world) :
  py_truthy_opt (OPENAI_API_KEY (cfg e)) = false ->
  generate_persona e posts comments w
  = Exited 1 (mk_world (out w ++ [M_openai_key_missing])%list (files w) (calls w)).
Proof. intros Hk; unfold generate_persona; rewrite Hk; cbn [negb]; step; reflexivity. Qed.

(** With a key, [generate_persona] issues one completion request and its
    result is decided by the response alone. *)
Lemma generate_persona_call (e : env) posts comments (w : world) :
  py_truthy_opt (OPENAI_API_KEY (cfg e)) = true ->
  exists full_prompt w1,
    files w1 = files w /\ calls w1 = (calls w ++ [Call_completion full_prompt])%list /\
    generate_persona e posts comments w
    = (match chat_completion e full_prompt with
       | Completion_ok text => ret text
       | Completion_openai_error msg =>
           print (M_openai_error msg) ;; print M_openai_hint ;; sys_exit 1
       | Completion_other_error msg => print (M_unexpected_error msg) ;; sys_exit 1
       end) w1.
Proof.
  intros Hk; unfold generate_persona; rewrite Hk; cbn [negb].
  destruct (py_len (content_for_llm posts comments) >? max_input_length)%Z;
    cbn [bind print ret request]; do 2 eexists;
    (split; [idtac | split; [idtac | reflexivity]]); reflexivity.
Qed.

Lemma save_persona_writes (e : env) (username text : string) (w : world) :
  writable e (persona_filename username) = true ->
  save_persona e username text w
  = Ok tt (mk_world (out w ++ [M_saved (persona_filename username)])%list
                    (fun f => if String.eqb f (persona_filename username) then Some text
                              else files w f)
                    (calls w)).
Proof. intros Hw; unfold save_persona; rewrite Hw; reflexivity. Qed.

Lemma save_persona_fails (e : env) (username text : string) (w : world) :
  writable e (persona_filename username) = false ->
  save_persona e username text w
  = Exited 1 (mk_world (out w ++ [M_save_error (persona_filename username)])%list
                       (match partial_write e (persona_filename username) with
                        | None => files w
                        | Some n => fun f => if String.eqb f (persona_filename username)
                                             then Some (substring 0 n text) else files w f
                        end)
                       (calls w)).
Proof.
  intros Hw; unfold save_persona; rewrite Hw.
  destruct (partial_write e (persona_filename username)); reflexivity.
Qed.

(** ** Further stage lemmas *)




(** Exact requests of [get_user_data] with credentials and [limit > 0]. *)
Lemma get_user_data_requests (e : env) (username : string) (n : nat) (w : world) :
  py_all [REDDIT_CLIENT_ID (cfg e); REDDIT_CLIENT_SECRET (cfg e); REDDIT_USER_AGENT (cfg e)] = true ->
  username <> "" ->
  exists r w', get_user_data e username (S n) w = Ok r w' /\ files w' = files w /\
    calls w' = (calls w ++ [Call_submissions username (S n)] ++
                (if listing_fails (S n) (new_submissions e username) then []
                 else [Call_comments username (S n)]))%list /\
    (fst r <> [] \/ snd r <> [] ->
     calls w' = (calls w ++ [Call_submissions username (S n); Call_comments username (S n)])%list).
Proof.
  intros Hc Hu; unfold get_user_data; rewrite Hc; cbn [negb listing_request].
  rewrite (proj2 (String.eqb_neq username "") Hu).
  unfold listing_fails.
  destruct (listing_new (S n) (new_submissions e username)) as [subs [msg|]];
    cbn [snd]; unfold fetch_failed; step.
  - do 2 eexists; split; [reflexivity|]; simpl; split; [reflexivity|].
    split; [reflexivity|]. intros [H|H]; now contradiction H.
  - destruct (listing_new (S n) (new_comments e username)) as [coms [msg|]]; step;
      do 2 eexists; (split; [reflexivity|]); simpl; (split; [reflexivity|]);
      rewrite <- app_assoc; split; try reflexivity;
      intros _; reflexivity.
Qed.

Lemma no_slash_app (a b : string) : no_slash (a ++ b) = no_slash a && no_slash b.
Proof. induction a as [|c a IH]; simpl; [reflexivity|]. rewrite IH; apply andb_assoc. Qed.

Lemma take_nonslash_no_slash (s : string) : no_slash (take_nonslash s) = true.
Proof.
  induction s as [|c s IH]; simpl; [reflexivity|].
  destruct (Ascii.eqb c "/"%char) eqn:Hc; simpl; [reflexivity|]. now rewrite Hc, IH.
Qed.

Lemma re_search_no_slash (s g : string) : re_search s = Some g -> no_slash g = true.
Proof.
  induction s as [|c s IH]; rewrite re_search_eq.
  - discriminate.
  - unfold match_at at 1; destruct (prefix user_pat (String c s)); [|exact IH].
    destruct (take_nonslash (drop (String.length user_pat) (String c s))) as [|a t] eqn:Ht;
      [exact IH|].
    intros H; injection H as <-; rewrite <- Ht; apply take_nonslash_no_slash.
Qed.


Lemma is_nil_map {A B} (f : A -> B) (l : list A) : is_nil (map f l) = is_nil l.
Proof. now destruct l. Qed.

(** Whether [get_user_data] returns data is decided by the listings. *)
Lemma get_user_data_returns_data (e : env) (username : string) (limit : nat)
      (w w' : world) (posts : list post) (comments : list comment) :
  get_user_data e username limit w = Ok (posts, comments) w' ->
  negb (is_nil posts && is_nil comments) = fetch_returns_data e username limit.
Proof.
  intros H; unfold fetch_returns_data.
  destruct (get_user_data_cases e username limit w w' posts comments H)
    as [[-> [-> [Hf _]]] | [subs [coms [Hs [Hc [-> ->]]]]]].
  - unfold listing_fails in Hf.
    destruct (listing_new limit (new_submissions e username)) as [? [?|]]; [reflexivity|].
    destruct (listing_new limit (new_comments e username)) as [? [?|]]; [reflexivity|].
    discriminate.
  - rewrite Hs, Hc, !is_nil_map; reflexivity.
Qed.

Lemma fetch_returns_data_no_failure (e : env) (username : string) (limit : nat) :
  fetch_returns_data e username limit = true ->
  listing_fails limit (new_submissions e username) = false.
Proof.
  unfold fetch_returns_data, listing_fails.
  destruct (listing_new limit (new_submissions e username)) as [? [?|]]; [discriminate|reflexivity].
Qed.

(** * Claims *)

(** C1, counterexample: the spec's own test, an empty username with a
    backend whose listing fails.  [reddit.redditor("")] raises [ValueError]
    on line 39, before the [try], so [get_user_data] does not return two
    empty lists: nothing is requested, the traceback is printed and the
    process ends with status 1. *)
Lemma empty_username_error_not_caught :
  listing_fails 50 (new_submissions env_fetch_error "") = true /\
  get_user_data env_fetch_error "" 50 w_empty
  = Exited 1 (mk_world [M_uncaught_exception "ValueError"] (fun _ => None) []).
Proof. split; reflexivity. Qed.

(** C1, amended: for a non-empty username, when a retrieval step raises,
    [get_user_data] catches the exception, reports it, and returns two
    empty lists; an empty username is rejected by [reddit.redditor] outside
    the [try], with an uncaught [ValueError] ending the process with status
    1; and whenever [get_user_data] returns two empty lists, [main] prints
    the "no data" message and exits with status 0. *)
Theorem fetch_error_soft_failure :
  (forall (e : env) (username : string) (limit : nat) (w : world),
     py_all [REDDIT_CLIENT_ID (cfg e); REDDIT_CLIENT_SECRET (cfg e);
             REDDIT_USER_AGENT (cfg e)] = true ->
     username <> "" ->
     (listing_fails limit (new_submissions e username)
      || listing_fails limit (new_comments e username)) = true ->
     exists w', get_user_data e username limit w = Ok ([], []) w' /\
                exists msg, In (M_fetch_error msg) (out w'))
  /\
  (forall (e : env) (limit : nat) (w : world),
     py_all [REDDIT_CLIENT_ID (cfg e); REDDIT_CLIENT_SECRET (cfg e);
             REDDIT_USER_AGENT (cfg e)] = true ->
     get_user_data e "" limit w
     = Exited 1 (mk_world (out w ++ [M_uncaught_exception "ValueError"])%list
                          (files w) (calls w)))
  /\
  (forall (e : env) (username : string),
     extract_username (py_strip (stdin_line e)) = Some username ->
     (forall w, exists w', get_user_data e username 50 w = Ok ([], []) w') ->
     exists w, run_main e = Exited 0 w /\ last (out w) M_banner = M_no_data username).
Proof.
  split; [|split].
  - intros e username limit w Hc Hu Hf.
    unfold get_user_data; rewrite Hc; cbn [negb].
    rewrite (proj2 (String.eqb_neq username "") Hu).
    unfold listing_fails in Hf.
    unfold bind at 1; unfold print at 1; unfold bind at 1.
    match goal with |- context [listing_request ?c limit ?w0] =>
      destruct (listing_request_ok c limit w0) as [w1 [-> _]] end.
    destruct (listing_new limit (new_submissions e username)) as [subs [msg|]] eqn:Hs.
    + unfold fetch_failed; step; eexists; split; [reflexivity|].
      exists msg; simpl; rewrite <- app_assoc; apply in_or_app; right; simpl; tauto.
    + simpl in Hf.
      unfold bind at 1; unfold print at 1; unfold bind at 1.
      match goal with |- context [listing_request ?c limit ?w0] =>
        destruct (listing_request_ok c limit w0) as [w2 [-> _]] end.
      destruct (listing_new limit (new_comments e username)) as [coms [msg|]] eqn:Hc2;
        [|discriminate].
      unfold fetch_failed; step; eexists; split; [reflexivity|].
      exists msg; simpl; rewrite <- app_assoc; apply in_or_app; right; simpl; tauto.
  - intros e limit w Hc.
    unfold get_user_data; rewrite Hc; cbn [negb String.eqb]; step; reflexivity.
  - intros e username Hx Hg.
    rewrite (main_unfold e username Hx).
    unfold bind at 1.
    match goal with |- context [get_user_data e username 50 ?w0] =>
      destruct (Hg w0) as [w' ->] end.
    cbn [fst snd]; unfold main_after_fetch; cbn [is_nil andb]; step.
    eexists; split; [reflexivity|]; simpl.
    now rewrite last_last.
Qed.

(** C3: the serialized posts and comments embedded in the completion
    prompt are at most 15000 characters long (a prefix of the full
    serialization), and the truncation warning is printed exactly when the
    full serialization is longer than 15000 characters. *)
Theorem prompt_content_capped :
  forall (e : env) (posts : list post) (comments : list comment) (w : world),
    py_truthy_opt (OPENAI_API_KEY (cfg e)) = true ->
    exists content new_out,
      calls (final_world (generate_persona e posts comments w))
        = (calls w ++ [Call_completion (prompt ++ content)])%list /\
      (py_len content <= max_input_length)%Z /\
      (exists rest, content_for_llm posts comments = content ++ rest) /\
      out (final_world (generate_persona e posts comments w)) = (out w ++ new_out)%list /\
      existsb is_truncation_warning new_out
        = (py_len (content_for_llm posts comments) >? max_input_length)%Z.
Proof.
  intros e posts comments w Hk.
  unfold generate_persona; rewrite Hk; cbn [negb].
  set (ser := content_for_llm posts comments).
  destruct (py_len ser >? max_input_length)%Z eqn:Ht.
  - exists (py_slice_upto ser max_input_length).
    cbn [bind print ret request sys_exit out files calls].
    destruct (chat_completion e (prompt ++ py_slice_upto ser max_input_length));
      cbn [bind print ret request sys_exit out files calls final_world].
    + exists [M_truncated (py_len ser) max_input_length].
      repeat split; [apply py_slice_upto_len | apply substring0_prefix].
    + exists [M_truncated (py_len ser) max_input_length; M_openai_error msg; M_openai_hint].
      repeat split; [apply py_slice_upto_len | apply substring0_prefix | now rewrite <- !app_assoc].
    + exists [M_truncated (py_len ser) max_input_length; M_unexpected_error msg].
      repeat split; [apply py_slice_upto_len | apply substring0_prefix | now rewrite <- !app_assoc].
  - exists ser.
    cbn [bind print ret request sys_exit out files calls].
    assert (Hl : (py_len ser <= max_input_length)%Z) by lia.
    assert (Hp : exists rest, ser = ser ++ rest) by (exists ""; now rewrite str_app_nil_r).
    destruct (chat_completion e (prompt ++ ser));
      cbn [bind print ret request sys_exit out files calls final_world].
    + exists []; rewrite app_nil_r; repeat split; assumption.
    + exists [M_openai_error msg; M_openai_hint].
      repeat split; [assumption | assumption | now rewrite <- !app_assoc].
    + exists [M_unexpected_error msg].
      repeat split; assumption.
Qed.

(** C7: every post and comment returned by [get_user_data] has a
    non-empty url equal to "https://www.reddit.com" followed by the
    permalink of the submission or comment it was built from. *)
Theorem fetched_urls_are_permalinks :
  forall (e : env) (username : string) (limit : nat) (w w' : world)
         (posts : list post) (comments : list comment),
    get_user_data e username limit w = Ok (posts, comments) w' ->
    Forall (fun p => exists s, In (Item s) (new_submissions e username) /\
                               post_id p = sub_id s /\
                               post_url p = reddit_base ++ sub_permalink s /\
                               post_url p <> "") posts /\
    Forall (fun c => exists r, In (Item r) (new_comments e username) /\
                               comment_id c = rc_id r /\
                               comment_url c = reddit_base ++ rc_permalink r /\
                               comment_url c <> "") comments.
Proof.
  intros e username limit w w' posts comments H.
  destruct (get_user_data_cases e username limit w w' posts comments H)
    as [[-> [-> _]] | [subs [coms [Hs [Hc [-> ->]]]]]]; [split; constructor|].
  split; apply Forall_forall; intros x Hx; apply in_map_iff in Hx as [y [<- Hy]].
  - exists y; split; [apply (listing_new_in limit); now rewrite Hs|].
    repeat split; discriminate.
  - exists y; split; [apply (listing_new_in limit); now rewrite Hc|].
    repeat split; discriminate.
Qed.

(** C8: [get_user_data] returns at most [limit] posts and at most
    [limit] comments, however long the upstream listings are. *)
Theorem fetch_respects_limit :
  forall (e : env) (username : string) (limit : nat) (w w' : world)
         (posts : list post) (comments : list comment),
    get_user_data e username limit w = Ok (posts, comments) w' ->
    (List.length posts <= limit)%nat /\ (List.length comments <= limit)%nat.
Proof.
  intros e username limit w w' posts comments H.
  destruct (get_user_data_cases e username limit w w' posts comments H)
    as [[-> [-> _]] | [subs [coms [Hs [Hc [-> ->]]]]]]; simpl; [lia|].
  rewrite !length_map.
  pose proof (listing_new_length limit (new_submissions e username)) as L1.
  pose proof (listing_new_length limit (new_comments e username)) as L2.
  rewrite Hs in L1; rewrite Hc in L2; simpl in *; lia.
Qed.

(** C9: each returned post records the id, the full permalink and the
    title of its submission, and as body the self-text of a self post or
    the placeholder "[Link Post]" for a link-only submission; when the
    fetch succeeds, every retrieved submission gives one post, in order. *)
Theorem post_fields_recorded :
  forall (e : env) (username : string) (limit : nat) (w w' : world)
         (posts : list post) (comments : list comment),
    get_user_data e username limit w = Ok (posts, comments) w' ->
    let recorded s p :=
      post_id p = sub_id s /\
      post_url p = reddit_base ++ sub_permalink s /\
      post_title p = sub_title s /\
      (sub_is_self s = true -> post_selftext p = sub_selftext s) /\
      (sub_is_self s = false -> post_selftext p = "[Link Post]") in
    Forall (fun p => exists s, In (Item s) (new_submissions e username) /\ recorded s p) posts /\
    (forall subs coms,
       listing_new limit (new_submissions e username) = (subs, None) ->
       listing_new limit (new_comments e username) = (coms, None) ->
       Forall2 recorded subs posts).
Proof.
  intros e username limit w w' posts comments H recorded.
  assert (Hrec : forall s, recorded s (post_of_submission s)).
  { intros s; unfold recorded, post_of_submission; simpl.
    repeat split; intros Hb; rewrite Hb; reflexivity. }
  destruct (get_user_data_cases e username limit w w' posts comments H)
    as [[-> [-> [Hf _]]] | [subs [coms [Hs [Hc [-> ->]]]]]].
  - split; [constructor|].
    intros subs coms Hs Hc; unfold listing_fails in Hf; rewrite Hs, Hc in Hf; discriminate.
  - split.
    + apply Forall_forall; intros x Hx; apply in_map_iff in Hx as [y [<- Hy]].
      exists y; split; [apply (listing_new_in limit); now rewrite Hs | apply Hrec].
    + intros subs' coms' Hs' _; rewrite Hs in Hs'; injection Hs' as <-.
      clear H Hs; induction subs as [|s subs IH]; simpl; constructor; [apply Hrec | exact IH].
Qed.

(** C4, counterexample: a URL that contains the segment
    [reddit.com/user/bob/] but an earlier [reddit.com/user/alice/] yields
    "alice", not "bob". *)
Lemma extract_username_not_every_segment :
  ~ (forall p name rest, name <> "" -> no_slash name = true ->
       extract_username (p ++ "reddit.com/user/" ++ name ++ "/" ++ rest) = Some name).
Proof.
  intros H.
  specialize (H "https://www.reddit.com/user/alice/" "bob" "" ltac:(discriminate) eq_refl).
  vm_compute in H; discriminate H.
Qed.

(** C4, amended: [extract_username] returns [None] exactly when the
    string has no [reddit.com/user/] followed by a character other than
    ['/']; otherwise it returns the maximal run of non-slash characters
    after the leftmost such occurrence.  The two examples of the spec
    hold. *)
Theorem extract_username_leftmost :
  (forall s, extract_username s = None <->
     ~ exists p c t, s = p ++ "reddit.com/user/" ++ String c t /\ c <> "/"%char)
  /\
  (forall p name rest,
     name <> "" -> no_slash name = true ->
     (rest = "" \/ exists r, rest = String "/" r) ->
     (forall q r, p = q ++ r -> r <> "" ->
        ~ exists c t, r ++ "reddit.com/user/" ++ name ++ rest
                      = "reddit.com/user/" ++ String c t /\ c <> "/"%char) ->
     extract_username (p ++ "reddit.com/user/" ++ name ++ rest) = Some name)
  /\ extract_username "https://example.com" = None
  /\ extract_username "https://www.reddit.com/user/kojied/" = Some "kojied".
Proof.
  split; [exact re_search_none_iff|].
  split; [exact re_search_leftmost|].
  split; reflexivity.
Qed.

(** C2, counterexample: with the three Reddit credentials set but no
    completion-API key, the run stops with status 1 only after the two
    Reddit listing requests. *)
Lemma missing_key_detected_after_fetch :
  ~ (forall e : env,
       py_all [REDDIT_CLIENT_ID (cfg e); REDDIT_CLIENT_SECRET (cfg e);
               REDDIT_USER_AGENT (cfg e); OPENAI_API_KEY (cfg e)] = false ->
       exists c w, run_main e = Exited c w /\ calls w = []).
Proof.
  intros H.
  destruct (H (env_with_data None (Completion_ok "PERSONA_TEXT") true) eq_refl)
    as [c [w [Hr Hc]]].
  vm_compute in Hr; injection Hr as _ Hw; subst w; discriminate Hc.
Qed.

(** C2, amended: each stage checks its own configuration.  A missing
    Reddit credential stops the run with status 1 before any request,
    whatever the URL.  A missing completion-API key is only noticed by
    [generate_persona], after the Reddit listing requests: when the fetch
    returned data, the run stops there with status 1 after both listing
    requests and before any completion request; when it returned nothing,
    the run takes the "no data" exit with status 0 first. *)
Theorem config_checked_per_stage :
  (forall e : env,
     py_all [REDDIT_CLIENT_ID (cfg e); REDDIT_CLIENT_SECRET (cfg e);
             REDDIT_USER_AGENT (cfg e)] = false ->
     exists w, run_main e = Exited 1 w /\ calls w = [])
  /\
  (forall (e : env) (username : string),
     extract_username (py_strip (stdin_line e)) = Some username ->
     py_all [REDDIT_CLIENT_ID (cfg e); REDDIT_CLIENT_SECRET (cfg e);
             REDDIT_USER_AGENT (cfg e)] = true ->
     py_truthy_opt (OPENAI_API_KEY (cfg e)) = false ->
     exists w,
       calls w = Call_submissions username 50 ::
                 (if listing_fails 50 (new_submissions e username) then []
                  else [Call_comments username 50]) /\
       if fetch_returns_data e username 50 then
         run_main e = Exited 1 w /\
         calls w = [Call_submissions username 50; Call_comments username 50] /\
         last (out w) M_banner = M_openai_key_missing
       else
         run_main e = Exited 0 w /\ last (out w) M_banner = M_no_data username).
Proof.
  split.
  - intros e Hc.
    destruct (extract_username (py_strip (stdin_line e))) as [username|] eqn:Hx.
    + rewrite (main_unfold e username Hx); unfold bind at 1.
      rewrite get_user_data_nocreds by exact Hc.
      eexists; split; reflexivity.
    + rewrite (run_main_invalid e Hx); eexists; split; reflexivity.
  - intros e username Hx Hc Hk.
    rewrite (main_unfold e username Hx); unfold bind.
    match goal with |- context [get_user_data e username 50 ?w0] =>
      destruct (get_user_data_requests e username 49 w0 Hc (extract_username_nonempty _ _ Hx))
        as [[ps cs] [w1 [Hg [_ [Hcalls _]]]]] end.
    rewrite Hg; cbn [fst snd]; simpl in Hcalls.
    pose proof (get_user_data_returns_data _ _ _ _ _ _ _ Hg) as Hd.
    destruct (fetch_returns_data e username 50) eqn:Hfd.
    + rewrite (fetch_returns_data_no_failure _ _ _ Hfd) in Hcalls.
      assert (Hne : ps <> [] \/ cs <> [])
        by (destruct ps; [destruct cs|]; simpl in Hd;
            [discriminate Hd | right; discriminate | left; discriminate]).
      rewrite main_after_fetch_data by exact Hne; unfold bind at 1.
      rewrite generate_persona_nokey by exact Hk.
      eexists; split; [|split; [reflexivity|]]; simpl.
      * now rewrite Hcalls, (fetch_returns_data_no_failure _ _ _ Hfd).
      * split; [now rewrite Hcalls | apply last_last].
    + assert (ps = [] /\ cs = []) as [-> ->]
        by (destruct ps; [destruct cs|]; simpl in Hd; [split; reflexivity | discriminate Hd | discriminate Hd]).
      cbn [fst snd]; rewrite main_after_fetch_empty.
      eexists; split; [|split; [reflexivity|]]; simpl.
      * now rewrite Hcalls.
      * apply last_last.
Qed.

(** C5: [save_persona] writes the persona text verbatim to
    [<username>_persona.txt], replacing any earlier content and touching no
    other file; with a completion API that answers "PERSONA_TEXT", a run
    ends with that file holding exactly "PERSONA_TEXT". *)
Theorem save_persona_verbatim :
  (forall (e : env) (username text : string) (w : world),
     writable e (persona_filename username) = true ->
     exists w', save_persona e username text w = Ok tt w' /\
       files w' (username ++ "_persona.txt") = Some text /\
       (forall f, f <> username ++ "_persona.txt" -> files w' f = files w f))
  /\
  (forall (e : env) (username : string),
     extract_username (py_strip (stdin_line e)) = Some username ->
     fetch_has_data e username ->
     py_truthy_opt (OPENAI_API_KEY (cfg e)) = true ->
     (forall full_prompt, chat_completion e full_prompt = Completion_ok "PERSONA_TEXT") ->
     writable e (persona_filename username) = true ->
     exists w, run_main e = Ok tt w /\
               files w (username ++ "_persona.txt") = Some "PERSONA_TEXT").
Proof.
  split.
  - intros e username text w Hw.
    rewrite save_persona_writes by exact Hw.
    eexists; split; [reflexivity|]; simpl; unfold persona_filename.
    rewrite String.eqb_refl; split; [reflexivity|].
    intros f Hf; apply String.eqb_neq in Hf; now rewrite Hf.
  - intros e username Hx Hd Hk Hapi Hw.
    rewrite (main_unfold e username Hx); unfold bind at 1.
    match goal with |- context [get_user_data e username 50 ?w0] =>
      destruct (Hd w0) as [ps [cs [w1 [-> Hne]]]] end.
    cbn [fst snd]; rewrite main_after_fetch_data by exact Hne; unfold bind at 1.
    match goal with |- context [generate_persona e ps cs ?w0] =>
      destruct (generate_persona_call e ps cs w0 Hk) as [pr [w2 [_ [_ ->]]]] end.
    rewrite Hapi; cbn [ret].
    rewrite (py_truthy_str_true "PERSONA_TEXT") by discriminate.
    rewrite save_persona_writes by exact Hw.
    eexists; split; [reflexivity|]; simpl; unfold persona_filename.
    now rewrite String.eqb_refl.
Qed.

(** C6, counterexample: a bad URL and a missing Reddit credential, two
    different early exits, end with the same status 1. *)
Lemma bad_url_and_config_error_same_status :
  let bad_url := sample_env (config_with_key (Some "sk-test")) "https://example.com"
                            [Item sample_self_post] [Item sample_comment]
                            (Completion_ok "PERSONA_TEXT") true in
  let no_client_id := sample_env (mk_config None (Some "client-secret")
                                            (Some "persona-script/0.1") (Some "sk-test"))
                                 sample_url [Item sample_self_post] [Item sample_comment]
                                 (Completion_ok "PERSONA_TEXT") true in
  last (out (final_world (run_main bad_url))) M_banner = M_invalid_url /\
  last (out (final_world (run_main no_client_id))) M_banner = M_reddit_credentials_missing /\
  exit_status (run_main bad_url) = exit_status (run_main no_client_id).
Proof. vm_compute; repeat split. Qed.

(** C6, amended: the exit status distinguishes only failure (1) from the
    "no data" abort and normal completion (0).  A bad URL, a missing Reddit
    credential, a missing completion-API key, a completion-API or
    unexpected generation error and a failed file write all exit with
    status 1; the "no data" abort exits with status 0, as does a run whose
    completion succeeds with a writable output file. *)
Theorem exit_status_by_path :
  forall e : env,
  (extract_username (py_strip (stdin_line e)) = None -> exit_status (run_main e) = 1%Z) /\
  (forall username, extract_username (py_strip (stdin_line e)) = Some username ->
     (py_all [REDDIT_CLIENT_ID (cfg e); REDDIT_CLIENT_SECRET (cfg e);
              REDDIT_USER_AGENT (cfg e)] = false -> exit_status (run_main e) = 1%Z) /\
     ((forall w, exists w', get_user_data e username 50 w = Ok ([], []) w') ->
        exit_status (run_main e) = 0%Z) /\
     (fetch_has_data e username ->
        (py_truthy_opt (OPENAI_API_KEY (cfg e)) = false -> exit_status (run_main e) = 1%Z) /\
        (py_truthy_opt (OPENAI_API_KEY (cfg e)) = true ->
           (forall pr, exists msg, chat_completion e pr = Completion_openai_error msg \/
                                   chat_completion e pr = Completion_other_error msg) ->
           exit_status (run_main e) = 1%Z) /\
        (py_truthy_opt (OPENAI_API_KEY (cfg e)) = true ->
           (forall pr, exists text, chat_completion e pr = Completion_ok text /\ text <> "") ->
           writable e (persona_filename username) = false ->
           exit_status (run_main e) = 1%Z) /\
        (py_truthy_opt (OPENAI_API_KEY (cfg e)) = true ->
           (forall pr, exists text, chat_completion e pr = Completion_ok text) ->
           writable e (persona_filename username) = true ->
           exit_status (run_main e) = 0%Z))).
Proof.
  intros e; split.
  - intros Hx; now rewrite run_main_invalid.
  - intros username Hx; rewrite (main_unfold e username Hx); unfold bind.
    split; [|split].
    + intros Hc; now rewrite get_user_data_nocreds.
    + intros Hg.
      match goal with |- context [get_user_data e username 50 ?w0] =>
        destruct (Hg w0) as [w1 ->] end.
      cbn [fst snd]; now rewrite main_after_fetch_empty.
    + intros Hd.
      match goal with |- context [get_user_data e username 50 ?w0] =>
        destruct (Hd w0) as [ps [cs [w1 [-> Hne]]]] end.
      cbn [fst snd]; rewrite main_after_fetch_data by exact Hne; unfold bind.
      split; [|split; [|split]].
      * intros Hk; now rewrite generate_persona_nokey.
      * intros Hk Hapi.
        match goal with |- context [generate_persona e ps cs ?w0] =>
          destruct (generate_persona_call e ps cs w0 Hk) as [pr [w2 [_ [_ ->]]]] end.
        destruct (Hapi pr) as [msg [-> | ->]]; reflexivity.
      * intros Hk Hapi Hw.
        match goal with |- context [generate_persona e ps cs ?w0] =>
          destruct (generate_persona_call e ps cs w0 Hk) as [pr [w2 [_ [_ ->]]]] end.
        destruct (Hapi pr) as [text [-> Htext]]; cbn [ret].
        rewrite (py_truthy_str_true text Htext).
        now rewrite save_persona_fails.
      * intros Hk Hapi Hw.
        match goal with |- context [generate_persona e ps cs ?w0] =>
          destruct (generate_persona_call e ps cs w0 Hk) as [pr [w2 [_ [_ ->]]]] end.
        destruct (Hapi pr) as [text ->]; cbn [ret].
        destruct (py_truthy_str text); [now rewrite save_persona_writes | reflexivity].
Qed.

(** C10: when the completion succeeds with the empty string, no file is
    written, "Failed to generate persona." is the last message, and the
    process ends normally with status 0. *)
Theorem empty_persona_exits_zero :
  forall (e : env) (username : string),
    extract_username (py_strip (stdin_line e)) = Some username ->
    fetch_has_data e username ->
    py_truthy_opt (OPENAI_API_KEY (cfg e)) = true ->
    (forall full_prompt, chat_completion e full_prompt = Completion_ok "") ->
    exists w, run_main e = Ok tt w /\
              (forall f, files w f = initial_files e f) /\
              last (out w) M_banner = M_failed_generate /\
              exit_status (run_main e) = 0%Z.
Proof.
  intros e username Hx Hd Hk Hapi.
  pose proof (fetch_has_data_creds e username Hd) as Hc.
  rewrite (main_unfold e username Hx); unfold bind.
  match goal with |- context [get_user_data e username 50 ?w0] =>
    destruct (Hd w0) as [ps [cs [w1 [Hg Hne]]]];
    destruct (get_user_data_ok e username 50 w0 Hc (extract_username_nonempty _ _ Hx))
      as [r [w1' [Hg' [Hf _]]]] end.
  rewrite Hg in Hg'; injection Hg' as Hr Hw; subst r w1'; rewrite Hg.
  cbn [fst snd]; rewrite main_after_fetch_data by exact Hne; unfold bind.
  match goal with |- context [generate_persona e ps cs ?w0] =>
    destruct (generate_persona_call e ps cs w0 Hk) as [pr [w2 [Hf2 [_ ->]]]] end.
  rewrite Hapi; cbn [ret py_truthy_str].
  change (negb (String.eqb "" "")) with false; cbv iota.
  eexists; split; [reflexivity|].
  simpl in Hf, Hf2 |- *; split; [|split; [apply last_last | reflexivity]].
  intros f; now rewrite Hf2, Hf.
Qed.

(** * Further properties of the script *)


(** When the serialized posts and comments fit in 15000 characters, the
    completion request carries all of them after the fixed prompt, and no
    truncation warning is printed. *)
Theorem short_content_sent_whole :
  forall (e : env) (posts : list post) (comments : list comment) (w : world),
    py_truthy_opt (OPENAI_API_KEY (cfg e)) = true ->
    (py_len (content_for_llm posts comments) <= max_input_length)%Z ->
    calls (final_world (generate_persona e posts comments w))
      = (calls w ++ [Call_completion (prompt ++ content_for_llm posts comments)])%list /\
    existsb is_truncation_warning (out (final_world (generate_persona e posts comments w)))
      = existsb is_truncation_warning (out w).
Proof.
  intros e posts comments w Hk Hl.
  unfold generate_persona; rewrite Hk; cbn [negb].
  replace (py_len (content_for_llm posts comments) >? max_input_length)%Z with false by lia.
  cbn [bind print ret request sys_exit].
  destruct (chat_completion e (prompt ++ content_for_llm posts comments));
    cbn [bind print ret request sys_exit out calls final_world]; split; try reflexivity;
    rewrite !existsb_app; simpl; now rewrite ?orb_false_r.
Qed.

(** Each comment returned by a successful fetch records the id, the full
    permalink and the body of its praw comment, one per retrieved comment,
    in order. *)
Theorem comment_fields_recorded :
  forall (e : env) (username : string) (limit : nat) (w w' : world)
         (posts : list post) (comments : list comment) subs coms,
    get_user_data e username limit w = Ok (posts, comments) w' ->
    listing_new limit (new_submissions e username) = (subs, None) ->
    listing_new limit (new_comments e username) = (coms, None) ->
    Forall2 (fun r c => comment_id c = rc_id r /\
                        comment_url c = reddit_base ++ rc_permalink r /\
                        comment_body c = rc_body r) coms comments.
Proof.
  intros e username limit w w' posts comments subs coms H Hs Hc.
  destruct (get_user_data_cases e username limit w w' posts comments H)
    as [[_ [_ [Hf _]]] | [subs' [coms' [Hs' [Hc' [_ ->]]]]]].
  - unfold listing_fails in Hf; rewrite Hs, Hc in Hf; discriminate.
  - rewrite Hc in Hc'; injection Hc' as <-.
    clear H Hc; induction coms as [|r coms IH]; simpl; constructor; [|exact IH].
    repeat split.
Qed.

(** A username extracted from the URL is non-empty and has no ['/'], so
    [<username>_persona.txt] names a file of the working directory. *)
Theorem extracted_username_is_plain :
  forall s username : string,
    extract_username s = Some username ->
    username <> "" /\ no_slash username = true /\
    no_slash (persona_filename username) = true.
Proof.
  intros s username H.
  pose proof (re_search_no_slash s username H) as Hn.
  split; [exact (extract_username_nonempty s username H)|]; split; [exact Hn|].
  unfold persona_filename; rewrite no_slash_app, Hn; reflexivity.
Qed.


(** [generate_persona] never touches files.  Without a key it exits with
    status 1 before any request; with a key it issues exactly one
    completion request and returns the response text on success, or exits
    with status 1 on an API or unexpected error. *)
Theorem generate_persona_outcome :
  forall (e : env) (posts : list post) (comments : list comment) (w : world),
    let r := generate_persona e posts comments w in
    files (final_world r) = files w /\
    (py_truthy_opt (OPENAI_API_KEY (cfg e)) = false ->
       (exists w', r = Exited 1 w') /\ calls (final_world r) = calls w) /\
    (py_truthy_opt (OPENAI_API_KEY (cfg e)) = true ->
       exists full_prompt,
         calls (final_world r) = (calls w ++ [Call_completion full_prompt])%list /\
         match chat_completion e full_prompt with
         | Completion_ok text => exists w', r = Ok text w'
         | _ => exists w', r = Exited 1 w'
         end).
Proof.
  intros e posts comments w r; unfold r; clear r.
  destruct (py_truthy_opt (OPENAI_API_KEY (cfg e))) eqn:Hk.
  - destruct (generate_persona_call e posts comments w Hk) as [pr [w1 [Hf [Hc ->]]]].
    split; [|split; [discriminate|intros _; exists pr]];
      destruct (chat_completion e pr); cbn [bind print ret sys_exit final_world files calls];
      try (split; [exact Hc | eexists; reflexivity]); exact Hf.
  - rewrite generate_persona_nokey by exact Hk.
    split; [reflexivity|]; split; [intros _; split; [eexists|]; reflexivity | discriminate].
Qed.

(** With credentials, a non-empty username and [limit > 0],
    [get_user_data] never touches files and requests the submissions
    listing, then the comments listing only when the submissions listing
    did not raise.  Without credentials, or for an empty username (the
    uncaught [ValueError] of [reddit.redditor]), it exits with status 1,
    requesting nothing and touching no file. *)
Theorem get_user_data_request_order :
  forall (e : env) (username : string) (n : nat) (w : world),
    let r := get_user_data e username (S n) w in
    (py_all [REDDIT_CLIENT_ID (cfg e); REDDIT_CLIENT_SECRET (cfg e);
             REDDIT_USER_AGENT (cfg e)] = true ->
     username <> "" ->
       files (final_world r) = files w /\
       calls (final_world r)
         = (calls w ++ [Call_submissions username (S n)] ++
            (if listing_fails (S n) (new_submissions e username) then []
             else [Call_comments username (S n)]))%list) /\
    (py_all [REDDIT_CLIENT_ID (cfg e); REDDIT_CLIENT_SECRET (cfg e);
             REDDIT_USER_AGENT (cfg e)] = false \/ username = "" ->
       exists w', r = Exited 1 w' /\ calls w' = calls w /\ files w' = files w).
Proof.
  intros e username n w r; unfold r; clear r; split.
  - intros Hc Hu; destruct (get_user_data_requests e username n w Hc Hu)
      as [res [w' [-> [Hf [Hcalls _]]]]].
    split; assumption.
  - intros H.
    destruct (py_all [REDDIT_CLIENT_ID (cfg e); REDDIT_CLIENT_SECRET (cfg e);
                      REDDIT_USER_AGENT (cfg e)]) eqn:Hc.
    + destruct H as [H| ->]; [discriminate H|].
      unfold get_user_data; rewrite Hc; cbn [negb String.eqb]; step.
      eexists; repeat split.
    + rewrite get_user_data_nocreds by exact Hc.
      eexists; repeat split.
Qed.

(** A run changes at most one file: [<username>_persona.txt] for the
    username extracted from the typed URL.  It ends either with status 0
    after the "saved" message, or with status 1 after the save error
    message (the write failed after [open] had truncated the file). *)
Theorem main_writes_only_persona_file :
  forall (e : env) (f : string),
    files (final_world (run_main e)) f <> initial_files e f ->
    exists username,
      extract_username (py_strip (stdin_line e)) = Some username /\
      f = persona_filename username /\
      ((exit_status (run_main e) = 0%Z /\
        last (out (final_world (run_main e))) M_banner = M_saved f) \/
       (exit_status (run_main e) = 1%Z /\
        last (out (final_world (run_main e))) M_banner = M_save_error f)).
Proof.
  intros e f Hch.
  destruct (extract_username (py_strip (stdin_line e))) as [username|] eqn:Hx;
    [|rewrite run_main_invalid in Hch by exact Hx; now contradiction Hch].
  exists username; split; [reflexivity|].
  rewrite (main_unfold e username Hx) in Hch |- *; unfold bind in Hch |- *.
  match goal with |- context [get_user_data e username 50 ?w0] => set (w0' := w0) in * end.
  destruct (py_all [REDDIT_CLIENT_ID (cfg e); REDDIT_CLIENT_SECRET (cfg e);
                    REDDIT_USER_AGENT (cfg e)]) eqn:Hc;
    [|rewrite get_user_data_nocreds in Hch by exact Hc; now contradiction Hch].
  destruct (get_user_data_requests e username 49 w0' Hc (extract_username_nonempty _ _ Hx))
    as [[ps cs] [w1 [Hg [Hf1 _]]]].
  rewrite Hg in Hch |- *; cbn [fst snd] in Hch |- *.
  destruct ps as [|p ps]; [destruct cs as [|c cs]|];
    [rewrite main_after_fetch_empty in Hch; simpl in Hch; rewrite Hf1 in Hch;
     now contradiction Hch| |];
    (rewrite main_after_fetch_data in Hch |- * by (left + right; discriminate);
     unfold bind in Hch |- *;
     destruct (py_truthy_opt (OPENAI_API_KEY (cfg e))) eqn:Hk;
     [|rewrite generate_persona_nokey in Hch by exact Hk; simpl in Hch; rewrite Hf1 in Hch;
       now contradiction Hch]);
    (match goal with |- context [generate_persona e ?ps ?cs ?w0] =>
       destruct (generate_persona_call e ps cs w0 Hk) as [pr [w2 [Hf2 [_ Hgp]]]] end;
     rewrite Hgp in Hch |- *; simpl in Hf2;
     destruct (chat_completion e pr) as [text|msg|msg];
     cbn [bind print ret sys_exit final_world files] in Hch |- *;
     try (rewrite Hf2, Hf1 in Hch; now contradiction Hch);
     destruct (py_truthy_str text);
     [|cbn [print final_world files] in Hch; rewrite Hf2, Hf1 in Hch; now contradiction Hch];
     destruct (writable e (persona_filename username)) eqn:Hw;
     [rewrite save_persona_writes in Hch |- * by exact Hw; simpl in Hch;
      destruct (String.eqb f (persona_filename username)) eqn:Hfe;
      [apply String.eqb_eq in Hfe; subst f; split; [reflexivity|];
       left; split; [reflexivity | cbn [final_world out]; apply last_last]
      | rewrite Hf2, Hf1 in Hch; now contradiction Hch]
     |rewrite save_persona_fails in Hch |- * by exact Hw;
      destruct (partial_write e (persona_filename username)) as [k|]; simpl in Hch;
      [destruct (String.eqb f (persona_filename username)) eqn:Hfe;
       [apply String.eqb_eq in Hfe; subst f; split; [reflexivity|];
        right; split; [reflexivity | cbn [final_world out]; apply last_last]
       | rewrite Hf2, Hf1 in Hch; now contradiction Hch]
      | rewrite Hf2, Hf1 in Hch; now contradiction Hch]]).
Qed.

(** The requests of a run, in order: none (bad URL or no credentials), the
    submissions listing alone (it raised), both listings, or both listings
    followed by one completion request. *)
Theorem main_request_sequence :
  forall e : env,
    let cs := calls (final_world (run_main e)) in
    cs = [] \/
    exists username,
      extract_username (py_strip (stdin_line e)) = Some username /\
      (cs = [Call_submissions username 50] \/
       cs = [Call_submissions username 50; Call_comments username 50] \/
       exists full_prompt,
         cs = [Call_submissions username 50; Call_comments username 50;
               Call_completion full_prompt]).
Proof.
  intros e cs; unfold cs; clear cs.
  destruct (extract_username (py_strip (stdin_line e))) as [username|] eqn:Hx;
    [|left; now rewrite run_main_invalid].
  rewrite (main_unfold e username Hx); unfold bind.
  match goal with |- context [get_user_data e username 50 ?w0] => set (w0' := w0) in * end.
  destruct (py_all [REDDIT_CLIENT_ID (cfg e); REDDIT_CLIENT_SECRET (cfg e);
                    REDDIT_USER_AGENT (cfg e)]) eqn:Hc;
    [|left; now rewrite get_user_data_nocreds].
  right; exists username; split; [reflexivity|].
  destruct (get_user_data_requests e username 49 w0' Hc (extract_username_nonempty _ _ Hx))
    as [[ps cs] [w1 [Hg [_ [Hcalls Hdata]]]]].
  rewrite Hg; cbn [fst snd] in *.
  destruct ps as [|p ps]; [destruct cs as [|c cs]|].
  - rewrite main_after_fetch_empty; simpl; rewrite Hcalls; simpl.
    destruct (listing_fails 50 (new_submissions e username)); [left | right; left]; reflexivity.
  - assert (Hw1 := Hdata ltac:(right; discriminate)); clear Hcalls Hdata.
    rewrite main_after_fetch_data by (right; discriminate); unfold bind.
    destruct (py_truthy_opt (OPENAI_API_KEY (cfg e))) eqn:Hk;
      [|rewrite generate_persona_nokey by exact Hk; right; left; simpl; now rewrite Hw1].
    match goal with |- context [generate_persona e ?ps ?cs ?w0] =>
      destruct (generate_persona_call e ps cs w0 Hk) as [pr [w2 [_ [Hc2 ->]]]] end.
    simpl in Hc2; rewrite Hw1 in Hc2; right; right; exists pr.
    destruct (chat_completion e pr) as [text|msg|msg];
      cbn [bind print ret sys_exit final_world calls]; try exact Hc2.
    destruct (py_truthy_str text); [destruct (writable e (persona_filename username)) eqn:Hw;
      [rewrite save_persona_writes by exact Hw | rewrite save_persona_fails by exact Hw]|]; exact Hc2.
  - assert (Hw1 := Hdata ltac:(left; discriminate)); clear Hcalls Hdata.
    rewrite main_after_fetch_data by (left; discriminate); unfold bind.
    destruct (py_truthy_opt (OPENAI_API_KEY (cfg e))) eqn:Hk;
      [|rewrite generate_persona_nokey by exact Hk; right; left; simpl; now rewrite Hw1].
    match goal with |- context [generate_persona e ?ps ?cs ?w0] =>
      destruct (generate_persona_call e ps cs w0 Hk) as [pr [w2 [_ [Hc2 ->]]]] end.
    simpl in Hc2; rewrite Hw1 in Hc2; right; right; exists pr.
    destruct (chat_completion e pr) as [text|msg|msg];
      cbn [bind print ret sys_exit final_world calls]; try exact Hc2.
    destruct (py_truthy_str text); [destruct (writable e (persona_filename username)) eqn:Hw;
      [rewrite save_persona_writes by exact Hw | rewrite save_persona_fails by exact Hw]|]; exact Hc2.
Qed.

(** * Witnesses *)

(** [fetch_has_data] on a concrete environment, by evaluation. *)
Ltac fetch_has_data_by_eval :=
  intros ?w; do 3 eexists; split; [cbv; reflexivity | left; discriminate].

Lemma fetch_error_soft_failure_witness :
  listing_fails 50 (new_submissions env_fetch_error "kojied") = true /\
  (exists w', get_user_data env_fetch_error "kojied" 50 w_empty = Ok ([], []) w' /\
              exists msg, In (M_fetch_error msg) (out w')) /\
  get_user_data env_fetch_error "" 50 w_empty
    = Exited 1 (mk_world [M_uncaught_exception "ValueError"] (fun _ => None) []) /\
  (exists w, run_main env_fetch_error = Exited 0 w /\
             last (out w) M_banner = M_no_data "kojied").
Proof.
  split; [reflexivity|]; split; [|split].
  - apply (proj1 fetch_error_soft_failure); [reflexivity | discriminate | reflexivity].
  - exact (proj1 (proj2 fetch_error_soft_failure) env_fetch_error 50 w_empty eq_refl).
  - apply (proj2 (proj2 fetch_error_soft_failure)); [reflexivity|].
    intros w; destruct (proj1 fetch_error_soft_failure env_fetch_error "kojied" 50 w
                          eq_refl ltac:(discriminate) eq_refl) as [w' [H _]].
    exists w'; exact H.
Defined.

Lemma prompt_content_capped_witness :
  let e := env_with_data (Some "sk-test") (Completion_ok "PERSONA_TEXT") true in
  let posts := map post_of_submission [sample_self_post; sample_link_post] in
  let comments := [comment_of_rcomment sample_comment] in
  py_truthy_opt (OPENAI_API_KEY (cfg e)) = true /\
  exists content new_out,
    calls (final_world (generate_persona e posts comments w_empty))
      = (calls w_empty ++ [Call_completion (prompt ++ content)])%list /\
    (py_len content <= max_input_length)%Z /\
    (exists rest, content_for_llm posts comments = content ++ rest) /\
    out (final_world (generate_persona e posts comments w_empty)) = (out w_empty ++ new_out)%list /\
    existsb is_truncation_warning new_out
      = (py_len (content_for_llm posts comments) >? max_input_length)%Z.
Proof.
  intros e posts comments; split; [reflexivity|].
  apply prompt_content_capped; reflexivity.
Defined.

Lemma extract_username_leftmost_witness :
  extract_username ("" ++ "reddit.com/user/" ++ "kojied" ++ "/") = Some "kojied" /\
  extract_username "https://example.com" = None /\
  (extract_username "https://www.reddit.com/user/kojied/" = None <->
   ~ exists p c t, "https://www.reddit.com/user/kojied/" = p ++ "reddit.com/user/" ++ String c t
                   /\ c <> "/"%char).
Proof.
  split; [|split].
  - apply (proj1 (proj2 extract_username_leftmost)).
    + discriminate.
    + reflexivity.
    + right; exists ""; reflexivity.
    + intros q r Hq Hr; destruct q, r; try discriminate; contradiction.
  - exact (proj1 (proj2 (proj2 extract_username_leftmost))).
  - apply (proj1 extract_username_leftmost).
Defined.

Lemma config_checked_per_stage_witness :
  (exists w, run_main env_no_client_id = Exited 1 w /\ calls w = []) /\
  (exists w,
     calls w = Call_submissions "kojied" 50 ::
               (if listing_fails 50 (new_submissions (env_with_data None (Completion_ok "PERSONA_TEXT") true) "kojied")
                then [] else [Call_comments "kojied" 50]) /\
     if fetch_returns_data (env_with_data None (Completion_ok "PERSONA_TEXT") true) "kojied" 50 then
       run_main (env_with_data None (Completion_ok "PERSONA_TEXT") true) = Exited 1 w /\
       calls w = [Call_submissions "kojied" 50; Call_comments "kojied" 50] /\
       last (out w) M_banner = M_openai_key_missing
     else
       run_main (env_with_data None (Completion_ok "PERSONA_TEXT") true) = Exited 0 w /\
       last (out w) M_banner = M_no_data "kojied").
Proof.
  split.
  - apply (proj1 config_checked_per_stage env_no_client_id); reflexivity.
  - apply (proj2 config_checked_per_stage); reflexivity.
Defined.

Lemma save_persona_verbatim_witness :
  let e := env_with_data (Some "sk-test") (Completion_ok "PERSONA_TEXT") true in
  (exists w', save_persona e "kojied" "PERSONA_TEXT" w_empty = Ok tt w' /\
     files w' ("kojied" ++ "_persona.txt") = Some "PERSONA_TEXT" /\
     (forall f, f <> "kojied" ++ "_persona.txt" -> files w' f = files w_empty f)) /\
  (exists w, run_main e = Ok tt w /\ files w ("kojied" ++ "_persona.txt") = Some "PERSONA_TEXT").
Proof.
  cbv zeta; split.
  - apply (proj1 save_persona_verbatim); reflexivity.
  - apply (proj2 save_persona_verbatim); try reflexivity.
    fetch_has_data_by_eval.
Defined.

Lemma fetched_urls_are_permalinks_witness :
  let e := env_with_data (Some "sk-test") (Completion_ok "PERSONA_TEXT") true in
  let r := get_user_data e "kojied" 50 w_empty in
  r = Ok (map post_of_submission [sample_self_post; sample_link_post],
          [comment_of_rcomment sample_comment]) (final_world r) /\
  Forall (fun p => exists s, In (Item s) (new_submissions e "kojied") /\
                             post_id p = sub_id s /\
                             post_url p = reddit_base ++ sub_permalink s /\
                             post_url p <> "")
         (map post_of_submission [sample_self_post; sample_link_post]) /\
  Forall (fun c => exists r, In (Item r) (new_comments e "kojied") /\
                             comment_id c = rc_id r /\
                             comment_url c = reddit_base ++ rc_permalink r /\
                             comment_url c <> "")
         [comment_of_rcomment sample_comment].
Proof.
  intros e r; split; [reflexivity|].
  apply (fetched_urls_are_permalinks e "kojied" 50 w_empty (final_world r)); reflexivity.
Defined.

Lemma fetch_respects_limit_witness :
  let e := env_with_data (Some "sk-test") (Completion_ok "PERSONA_TEXT") true in
  let r := get_user_data e "kojied" 1 w_empty in
  r = Ok ([post_of_submission sample_self_post], [comment_of_rcomment sample_comment])
         (final_world r) /\
  (List.length [post_of_submission sample_self_post] <= 1)%nat /\
  (List.length [comment_of_rcomment sample_comment] <= 1)%nat.
Proof.
  intros e r; split; [reflexivity|].
  apply (fetch_respects_limit e "kojied" 1 w_empty (final_world r)); reflexivity.
Defined.

Lemma post_fields_recorded_witness :
  let e := env_with_data (Some "sk-test") (Completion_ok "PERSONA_TEXT") true in
  let r := get_user_data e "kojied" 50 w_empty in
  let recorded s p :=
    post_id p = sub_id s /\
    post_url p = reddit_base ++ sub_permalink s /\
    post_title p = sub_title s /\
    (sub_is_self s = true -> post_selftext p = sub_selftext s) /\
    (sub_is_self s = false -> post_selftext p = "[Link Post]") in
  r = Ok (map post_of_submission [sample_self_post; sample_link_post],
          [comment_of_rcomment sample_comment]) (final_world r) /\
  Forall2 recorded [sample_self_post; sample_link_post]
                   (map post_of_submission [sample_self_post; sample_link_post]).
Proof.
  intros e r recorded; split; [reflexivity|].
  apply (proj2 (post_fields_recorded e "kojied" 50 w_empty (final_world r) _ _ eq_refl)
                [sample_self_post; sample_link_post] [sample_comment]); reflexivity.
Defined.

Lemma exit_status_by_path_witness :
  exit_status (run_main env_bad_url) = 1%Z /\
  exit_status (run_main env_no_client_id) = 1%Z /\
  exit_status (run_main env_fetch_error) = 0%Z /\
  exit_status (run_main (env_with_data None (Completion_ok "PERSONA_TEXT") true)) = 1%Z /\
  exit_status (run_main (env_with_data (Some "sk-test") (Completion_openai_error "quota") true))
    = 1%Z /\
  exit_status (run_main (env_with_data (Some "sk-test") (Completion_ok "PERSONA_TEXT") false))
    = 1%Z /\
  exit_status (run_main (env_with_data (Some "sk-test") (Completion_ok "PERSONA_TEXT") true))
    = 0%Z.
Proof.
  split; [apply (proj1 (exit_status_by_path env_bad_url)); reflexivity|].
  split; [apply (proj1 (proj2 (exit_status_by_path env_no_client_id) "kojied" eq_refl));
          reflexivity|].
  split; [apply (proj1 (proj2 (proj2 (exit_status_by_path env_fetch_error) "kojied" eq_refl)));
          intros w; eexists; cbv; reflexivity|].
  split; [apply (proj1 (proj2 (proj2 (proj2 (exit_status_by_path
            (env_with_data None (Completion_ok "PERSONA_TEXT") true)) "kojied" eq_refl))
            ltac:(fetch_has_data_by_eval))); reflexivity|].
  split; [apply (proj1 (proj2 (proj2 (proj2 (proj2 (exit_status_by_path
            (env_with_data (Some "sk-test") (Completion_openai_error "quota") true))
            "kojied" eq_refl)) ltac:(fetch_has_data_by_eval))));
          [reflexivity | intros pr; exists "quota"; left; reflexivity]|].
  split; [apply (proj1 (proj2 (proj2 (proj2 (proj2 (proj2 (exit_status_by_path
            (env_with_data (Some "sk-test") (Completion_ok "PERSONA_TEXT") false))
            "kojied" eq_refl)) ltac:(fetch_has_data_by_eval)))));
          [reflexivity | intros pr; exists "PERSONA_TEXT"; split; [reflexivity | discriminate]
          | reflexivity]|].
  apply (proj2 (proj2 (proj2 (proj2 (proj2 (proj2 (exit_status_by_path
           (env_with_data (Some "sk-test") (Completion_ok "PERSONA_TEXT") true))
           "kojied" eq_refl)) ltac:(fetch_has_data_by_eval))))).
  - reflexivity.
  - intros pr; exists "PERSONA_TEXT"; reflexivity.
  - reflexivity.
Defined.

Lemma empty_persona_exits_zero_witness :
  exists w, run_main (env_with_data (Some "sk-test") (Completion_ok "") true) = Ok tt w /\
            (forall f, files w f = initial_files
                                     (env_with_data (Some "sk-test") (Completion_ok "") true) f) /\
            last (out w) M_banner = M_failed_generate /\
            exit_status (run_main (env_with_data (Some "sk-test") (Completion_ok "") true)) = 0%Z.
Proof.
  apply (empty_persona_exits_zero _ "kojied").
  - reflexivity.
  - fetch_has_data_by_eval.
  - reflexivity.
  - intros pr; reflexivity.
Defined.

Lemma short_content_sent_whole_witness :
  let e := env_with_data (Some "sk-test") (Completion_ok "PERSONA_TEXT") true in
  let posts := map post_of_submission [sample_self_post; sample_link_post] in
  let comments := [comment_of_rcomment sample_comment] in
  (py_len (content_for_llm posts comments) <= max_input_length)%Z /\
  calls (final_world (generate_persona e posts comments w_empty))
    = (calls w_empty ++ [Call_completion (prompt ++ content_for_llm posts comments)])%list /\
  existsb is_truncation_warning (out (final_world (generate_persona e posts comments w_empty)))
    = existsb is_truncation_warning (out w_empty).
Proof.
  cbv zeta; split; [apply Z.leb_le; vm_compute; reflexivity|].
  apply short_content_sent_whole; [reflexivity | apply Z.leb_le; vm_compute; reflexivity].
Defined.

Lemma comment_fields_recorded_witness :
  let e := env_with_data (Some "sk-test") (Completion_ok "PERSONA_TEXT") true in
  let r := get_user_data e "kojied" 50 w_empty in
  r = Ok (map post_of_submission [sample_self_post; sample_link_post],
          [comment_of_rcomment sample_comment]) (final_world r) /\
  Forall2 (fun r c => comment_id c = rc_id r /\
                      comment_url c = reddit_base ++ rc_permalink r /\
                      comment_body c = rc_body r)
          [sample_comment] [comment_of_rcomment sample_comment].
Proof.
  intros e r; split; [reflexivity|].
  apply (comment_fields_recorded e "kojied" 50 w_empty (final_world r)
           (map post_of_submission [sample_self_post; sample_link_post])
           [comment_of_rcomment sample_comment]
           [sample_self_post; sample_link_post]); reflexivity.
Defined.

Lemma extracted_username_is_plain_witness :
  extract_username sample_url = Some "kojied" /\
  "kojied" <> "" /\ no_slash "kojied" = true /\ no_slash (persona_filename "kojied") = true.
Proof.
  split; [reflexivity|].
  apply (extracted_username_is_plain sample_url); reflexivity.
Defined.


Lemma generate_persona_outcome_witness :
  let posts := map post_of_submission [sample_self_post] in
  (exists full_prompt,
     calls (final_world (generate_persona
              (env_with_data (Some "sk-test") (Completion_ok "PERSONA_TEXT") true)
              posts [] w_empty)) = (calls w_empty ++ [Call_completion full_prompt])%list /\
     match chat_completion (env_with_data (Some "sk-test") (Completion_ok "PERSONA_TEXT") true)
             full_prompt with
     | Completion_ok text => exists w', generate_persona
              (env_with_data (Some "sk-test") (Completion_ok "PERSONA_TEXT") true)
              posts [] w_empty = Ok text w'
     | _ => exists w', generate_persona
              (env_with_data (Some "sk-test") (Completion_ok "PERSONA_TEXT") true)
              posts [] w_empty = Exited 1 w'
     end) /\
  ((exists w', generate_persona (env_with_data None (Completion_ok "PERSONA_TEXT") true)
                                posts [] w_empty = Exited 1 w') /\
   calls (final_world (generate_persona (env_with_data None (Completion_ok "PERSONA_TEXT") true)
                                        posts [] w_empty)) = calls w_empty).
Proof.
  intros posts; split.
  - exact (proj2 (proj2 (generate_persona_outcome
             (env_with_data (Some "sk-test") (Completion_ok "PERSONA_TEXT") true)
             posts [] w_empty)) eq_refl).
  - exact (proj1 (proj2 (generate_persona_outcome
             (env_with_data None (Completion_ok "PERSONA_TEXT") true)
             posts [] w_empty)) eq_refl).
Defined.

Lemma get_user_data_request_order_witness :
  (files (final_world (get_user_data env_fetch_error "kojied" 50 w_empty)) = files w_empty /\
   calls (final_world (get_user_data env_fetch_error "kojied" 50 w_empty))
     = (calls w_empty ++ [Call_submissions "kojied" 50] ++
        (if listing_fails 50 (new_submissions env_fetch_error "kojied") then []
         else [Call_comments "kojied" 50]))%list) /\
  (exists w', get_user_data env_no_client_id "kojied" 50 w_empty = Exited 1 w' /\
              calls w' = calls w_empty /\ files w' = files w_empty) /\
  (exists w', get_user_data env_fetch_error "" 50 w_empty = Exited 1 w' /\
              calls w' = calls w_empty /\ files w' = files w_empty).
Proof.
  split; [|split].
  - exact (proj1 (get_user_data_request_order env_fetch_error "kojied" 49 w_empty)
             eq_refl ltac:(discriminate)).
  - exact (proj2 (get_user_data_request_order env_no_client_id "kojied" 49 w_empty)
             (or_introl eq_refl)).
  - exact (proj2 (get_user_data_request_order env_fetch_error "" 49 w_empty)
             (or_intror eq_refl)).
Defined.

Lemma main_writes_only_persona_file_witness :
  files (final_world (run_main env_disk_full)) "kojied_persona.txt"
    <> initial_files env_disk_full "kojied_persona.txt" /\
  exists username,
    extract_username (py_strip (stdin_line env_disk_full)) = Some username /\
    "kojied_persona.txt" = persona_filename username /\
    ((exit_status (run_main env_disk_full) = 0%Z /\
      last (out (final_world (run_main env_disk_full))) M_banner = M_saved "kojied_persona.txt") \/
     (exit_status (run_main env_disk_full) = 1%Z /\
      last (out (final_world (run_main env_disk_full))) M_banner
        = M_save_error "kojied_persona.txt")).
Proof.
  assert (H : files (final_world (run_main env_disk_full)) "kojied_persona.txt"
              <> initial_files env_disk_full "kojied_persona.txt") by (vm_compute; discriminate).
  split; [exact H | exact (main_writes_only_persona_file env_disk_full "kojied_persona.txt" H)].
Defined.

